(** * mistral/engine/engine_server.py: the engine server

    [EngineServer] manages the life cycle of the workflow engine process
    ([start], [stop]) and is the RPC endpoint whose methods receive the engine
    calls ([start_workflow], [start_action], [on_action_complete],
    [pause_workflow], [rerun_workflow], [resume_workflow], [stop_workflow],
    [rollback_workflow]).

    Every method is a straight line of calls into collaborators that live
    outside the file (the engine, the data base layer, the scheduler, the
    expiration policy, the profiler, the RPC driver, the base service class and
    the logger).  The embedding is a small monad: a computation takes the
    state of the server object and of its collaborators, and gives an outcome,
    a new state and the sequence of collaborator calls it made, each with what
    the collaborator answered.  The collaborators are one parameter, [env]. *)

From Stdlib Require Import Ascii String List ZArith Bool Lia.
Import ListNotations.
Local Open Scope string_scope.
Local Open Scope list_scope.
Set Warnings "-register-all".

(** ** Python values *)

(** The values that travel through the server: what an RPC call carries
    (None, booleans, integers, strings, mappings), the result object built by
    [on_action_complete], and references to objects whose inside the server
    never looks at (handles, driver instances, executions). A mapping keeps
    its items in insertion order. *)
Inductive pyval : Type :=
| PNone
| PBool (b : bool)
| PInt (z : Z)
| PStr (s : string)
| PDict (items : list (pyval * pyval))
| PResult (data error : pyval)
| PObj (name : string).

(** Truth value of an object, as an [if] statement tests it. *)
Definition truthy (v : pyval) : bool :=
  match v with
  | PNone => false
  | PBool b => b
  | PInt z => negb (z =? 0)%Z
  | PStr s => negb (String.eqb s "")
  | PDict items => match items with [] => false | _ :: _ => true end
  | PResult _ _ => true
  | PObj _ => true
  end.

(** [v is not None]. *)
Definition is_not_none (v : pyval) : bool :=
  match v with PNone => false | _ => true end.

(** An exception: its class and its message. *)
Record exn : Type := Exc { exc_class : string; exc_detail : string }.

(** How a call ends: it returns a value, it raises, or it never returns (the
    blocking serve loop of an RPC server that is not shut down). *)
Inductive outcome (A : Type) : Type :=
| Returned (a : A)
| Raised (e : exn)
| Blocked.
Arguments Returned {A} a.
Arguments Raised {A} e.
Arguments Blocked {A}.

(** A parameter with a default value: [None] when the caller leaves it out. *)
Definition default_arg (dflt : pyval) (given : option pyval) : pyval :=
  match given with Some v => v | None => dflt end.

(** *** Keyword unpacking: a call that ends in two stars and a mapping *)

(** The items of a mapping as keyword arguments; every key has to be a
    string. *)
Fixpoint keyword_items (items : list (pyval * pyval))
  : option (list (string * pyval)) :=
  match items with
  | [] => Some []
  | (PStr k, v) :: rest =>
      match keyword_items rest with
      | Some kw => Some ((k, v) :: kw)
      | None => None
      end
  | _ :: _ => None
  end.

Definition TypeError (detail : string) : exn := Exc "TypeError" detail.

(** The argument after the two stars must be a mapping, and its keys
    strings; otherwise the call expression raises TypeError and the callee is
    never entered. *)
Definition unpack_kwargs (params : pyval) : outcome (list (string * pyval)) :=
  match params with
  | PDict items =>
      match keyword_items items with
      | Some kw => Returned kw
      | None => Raised (TypeError "keywords must be strings")
      end
  | _ => Raised (TypeError "argument after ** must be a mapping")
  end.

(** *** String formatting, [fmt % (a, b, ...)] *)

(** Number of [%s] conversions of a format string (the only conversion the
    file uses). *)
Fixpoint placeholders (fmt : string) : nat :=
  match fmt with
  | EmptyString => 0
  | String c rest =>
      match rest with
      | String d rest' =>
          if (Ascii.eqb c "%"%char && Ascii.eqb d "s"%char)%bool
          then S (placeholders rest')
          else placeholders rest
      | EmptyString => 0
      end
  end.

(** A formatted message is kept as its format string and the values that were
    interpolated, in order: the text of the message is a function of these
    two, whatever [str] makes of each value. *)
Record message : Type := Msg { msg_format : string; msg_values : list pyval }.

(** [fmt % values] raises TypeError unless the tuple has one value per
    conversion. *)
Definition percent (fmt : string) (values : list pyval) : outcome message :=
  if Nat.eqb (placeholders fmt) (length values)
  then Returned (Msg fmt values)
  else Raised (TypeError "format string and arguments do not match").

(** [needle in haystack] for strings. *)
Fixpoint contains (needle haystack : string) : bool :=
  (String.prefix needle haystack
   || match haystack with
      | EmptyString => false
      | String _ rest => contains needle rest
      end)%bool.

(** ** The result of an action *)

Module wf_utils.

(** Modelled from the spec: the class [Result] of mistral/workflow/utils.py,
    which [on_action_complete] instantiates and which is not in the source
    at hand.  The specification describes it as a pure value that pairs the
    success data with the failure data of one action; whether a completion
    counts as SUCCESS or as ERROR is derived from whether the result carries
    an error, an explicit error taking precedence, and a data payload of
    None with no error counts as success. *)
Definition Result (data error : pyval) : pyval := PResult data error.

Definition data (r : pyval) : pyval :=
  match r with PResult d _ => d | _ => PNone end.

Definition error (r : pyval) : pyval :=
  match r with PResult _ e => e | _ => PNone end.

Definition is_error (r : pyval) : bool := is_not_none (error r).

Definition is_success (r : pyval) : bool := negb (is_error r).

(** The state the completion report leads to. *)
Definition state (r : pyval) : string :=
  if is_error r then "ERROR" else "SUCCESS".

End wf_utils.

(** ** The server object *)

Record EngineServer : Type := mkEngineServer {
  engine : pyval;
  _setup_profiler : pyval;
  _rpc_server : pyval;
  _scheduler : pyval;
  _expiration_policy_tg : pyval
}.

(** ** Calls into the collaborators *)

(** One constructor for each call site of the file that leaves the class. *)
Inductive call : Type :=
| ServiceStart                              (* super(EngineServer, self).start() *)
| ServiceStop (graceful : pyval)            (* super(EngineServer, self).stop(graceful) *)
| SetupDb                                   (* db_api.setup_db() *)
| SchedulerStart                            (* scheduler.start() *)
| SchedulerStop (handle graceful : pyval)   (* scheduler.stop_scheduler(handle, graceful) *)
| ExpirationSetup                           (* expiration_policy.setup() *)
| ExpirationStop (tg graceful : pyval)      (* self._expiration_policy_tg.stop(graceful) *)
| ProfilerSetup (binary host : pyval)       (* profiler_utils.setup(binary, host) *)
| GetRpcServerDriver                        (* rpc.get_rpc_server_driver() *)
| NewRpcServer (driver conf : pyval)        (* driver(conf) *)
| RegisterEndpoint (server : pyval) (endpoint : EngineServer)
                                            (* server.register_endpoint(endpoint) *)
| RpcRun (server : pyval) (executor : string) (* server.run(executor=executor) *)
| RpcStop (server graceful : pyval)         (* self._rpc_server.stop(graceful) *)
| NotifyStarted (text : string)             (* self._notify_started(text) *)
| Engine (method : string) (args : list pyval) (kwargs : list (string * pyval)).
                                            (* self.engine.method( *args, **kwargs) *)

(** What a method leaves behind: the calls it made, each with the answer it
    got, and the records it logged at level INFO. *)
Inductive event : Type :=
| Call (c : call) (answer : outcome pyval)
| LogInfo (m : message).

(** [EngineServer(engine, setup_profiler=True)]: the three handles start as
    None.  The base class receives [setup_profiler] and is taken to keep it as
    [_setup_profiler], the attribute [start] reads. *)
Definition __init__ (engine : pyval) (setup_profiler : option pyval)
  : EngineServer :=
  let setup_profiler := default_arg (PBool true) setup_profiler in
  {| engine := engine;
     _setup_profiler := setup_profiler;
     _rpc_server := PNone;
     _scheduler := PNone;
     _expiration_policy_tg := PNone |}.

Definition set_scheduler (h : pyval) (srv : EngineServer) : EngineServer :=
  {| engine := engine srv;
     _setup_profiler := _setup_profiler srv;
     _rpc_server := _rpc_server srv;
     _scheduler := h;
     _expiration_policy_tg := _expiration_policy_tg srv |}.

Definition set_expiration_policy_tg (h : pyval) (srv : EngineServer)
  : EngineServer :=
  {| engine := engine srv;
     _setup_profiler := _setup_profiler srv;
     _rpc_server := _rpc_server srv;
     _scheduler := _scheduler srv;
     _expiration_policy_tg := h |}.

Definition set_rpc_server (h : pyval) (srv : EngineServer) : EngineServer :=
  {| engine := engine srv;
     _setup_profiler := _setup_profiler srv;
     _rpc_server := h;
     _scheduler := _scheduler srv;
     _expiration_policy_tg := _expiration_policy_tg srv |}.

(** [get_oslo_service(setup_profiler=True)]: the engine of the server is the
    object the constructor [default_engine.DefaultEngine()] gave, and the flag
    is handed to the constructor of the server by keyword. *)
Definition get_oslo_service (default_engine : pyval)
  (setup_profiler : option pyval) : EngineServer :=
  let setup_profiler := default_arg (PBool true) setup_profiler in
  __init__ default_engine (Some setup_profiler).

(** The format strings of the eight log records, the adjacent literals of the
    source joined. *)
Definition fmt_start_workflow : string :=
  "Received RPC request 'start_workflow'[rpc_ctx=%s, workflow_identifier=%s, workflow_input=%s, description=%s, params=%s]".
Definition fmt_start_action : string :=
  "Received RPC request 'start_action'[rpc_ctx=%s, name=%s, input=%s, description=%s, params=%s]".
Definition fmt_on_action_complete : string :=
  "Received RPC request 'on_action_complete'[rpc_ctx=%s, action_ex_id=%s, result=%s]".
Definition fmt_pause_workflow : string :=
  "Received RPC request 'pause_workflow'[rpc_ctx=%s, execution_id=%s]".
Definition fmt_rerun_workflow : string :=
  "Received RPC request 'rerun_workflow'[rpc_ctx=%s, task_ex_id=%s]".
Definition fmt_resume_workflow : string :=
  "Received RPC request 'resume_workflow'[rpc_ctx=%s, wf_ex_id=%s]".
Definition fmt_stop_workflow : string :=
  "Received RPC request 'stop_workflow'[rpc_ctx=%s, execution_id=%s, state=%s, message=%s]".
Definition fmt_rollback_workflow : string :=
  "Received RPC request 'rollback_workflow'[rpc_ctx=%s, execution_id=%s]".

(** ** Collaborators to run the methods with *)

(** Collaborators without a state of their own, all of whose calls return:
    the scheduler, the expiration policy, the RPC layer and the engine give an
    object, everything else gives None. *)
Definition obliging (c : call) (w : unit) : outcome pyval * unit :=
  (Returned
     match c with
     | SchedulerStart => PObj "scheduler"
     | ExpirationSetup => PObj "expiration_tg"
     | GetRpcServerDriver => PObj "rpc_server_driver"
     | NewRpcServer _ _ => PObj "rpc_server"
     | Engine _ _ _ => PObj "execution"
     | _ => PNone
     end, w).

(** The same collaborators with a profiler that cannot be set up. *)
Definition profiler_down (c : call) (w : unit) : outcome pyval * unit :=
  match c with
  | ProfilerSetup _ _ => (Raised (Exc "RuntimeError" "profiler unavailable"), w)
  | _ => obliging c w
  end.

(** A server object fresh from its constructor, and one whose start got as far
    as the scheduler. *)
Definition fresh_server : EngineServer := __init__ (PObj "engine") None.

Definition half_started_server : EngineServer :=
  set_scheduler (PObj "scheduler") fresh_server.

(** ** The methods *)

Section Service.

(** The collaborators: their state, and what each call answers in a given
    state.  [cfg.CONF.engine] and its attribute [host] are configuration
    values. *)
Variable World : Type.
Variable env : call -> World -> outcome pyval * World.
Variable conf_engine : pyval.
Variable conf_engine_host : pyval.

Record state : Type := mkState { self : EngineServer; world : World }.

Record run (A : Type) : Type :=
  mkRun { result : outcome A; after : state; events : list event }.
Arguments mkRun {A}.
Arguments result {A}.
Arguments after {A}.
Arguments events {A}.

Definition M (A : Type) : Type := state -> run A.

Definition ret {A} (a : A) : M A := fun s => mkRun (Returned a) s [].

(** A statement that raises, or a call that never returns, ends the method:
    the file has no [try]. *)
Definition bind {A B} (p : M A) (k : A -> M B) : M B := fun s =>
  match p s with
  | mkRun (Returned a) s1 evs1 =>
      match k a s1 with
      | mkRun o s2 evs2 => mkRun o s2 (evs1 ++ evs2)
      end
  | mkRun (Raised e) s1 evs1 => mkRun (Raised e) s1 evs1
  | mkRun Blocked s1 evs1 => mkRun Blocked s1 evs1
  end.

Notation "x <- p ;; k" := (bind p (fun x => k))
  (at level 61, p at next level, right associativity).
Notation "p ;; k" := (bind p (fun _ => k))
  (at level 61, right associativity).

(** An expression evaluated inside the method. *)
Definition eval {A} (o : outcome A) : M A := fun s => mkRun o s [].

(** A call into a collaborator. *)
Definition invoke (c : call) : M pyval := fun s =>
  let (answer, w) := env c (world s) in
  mkRun answer (mkState (self s) w) [Call c answer].

(** [LOG.info(m)]. *)
Definition LOG_info (m : message) : M unit := fun s =>
  mkRun (Returned tt) s [LogInfo m].

Definition get_self : M EngineServer := fun s => mkRun (Returned (self s)) s [].

Definition assign (f : EngineServer -> EngineServer) : M unit := fun s =>
  mkRun (Returned tt) (mkState (f (self s)) (world s)) [].

(** [if cond: body], with no [else]. *)
Definition when (cond : pyval) (body : M pyval) : M unit :=
  if truthy cond then (body ;; ret tt) else ret tt.

(** *** Life cycle *)

Definition start : M pyval :=
  invoke ServiceStart ;;
  invoke SetupDb ;;
  h <- invoke SchedulerStart ;;
  assign (set_scheduler h) ;;
  tg <- invoke ExpirationSetup ;;
  assign (set_expiration_policy_tg tg) ;;
  this <- get_self ;;
  when (_setup_profiler this)
    (invoke (ProfilerSetup (PStr "mistral-engine") conf_engine_host)) ;;
  driver <- invoke GetRpcServerDriver ;;
  server <- invoke (NewRpcServer driver conf_engine) ;;
  assign (set_rpc_server server) ;;
  this <- get_self ;;
  invoke (RegisterEndpoint (_rpc_server this) this) ;;
  invoke (RpcRun (_rpc_server this) "blocking") ;;
  invoke (NotifyStarted "Engine server started.") ;;
  ret PNone.

Definition stop (graceful : option pyval) : M pyval :=
  let graceful := default_arg (PBool false) graceful in
  invoke (ServiceStop graceful) ;;
  this <- get_self ;;
  when (_scheduler this)
    (invoke (SchedulerStop (_scheduler this) graceful)) ;;
  when (_expiration_policy_tg this)
    (invoke (ExpirationStop (_expiration_policy_tg this) graceful)) ;;
  when (_rpc_server this)
    (invoke (RpcStop (_rpc_server this) graceful)) ;;
  ret PNone.

(** *** RPC endpoint *)

Definition start_workflow
  (rpc_ctx workflow_identifier workflow_input description params : pyval)
  : M pyval :=
  m <- eval (percent fmt_start_workflow
               [rpc_ctx; workflow_identifier; workflow_input; description;
                params]) ;;
  LOG_info m ;;
  kw <- eval (unpack_kwargs params) ;;
  invoke (Engine "start_workflow"
            [workflow_identifier; workflow_input; description] kw).

Definition start_action
  (rpc_ctx action_name action_input description params : pyval) : M pyval :=
  m <- eval (percent fmt_start_action
               [rpc_ctx; action_name; action_input; description; params]) ;;
  LOG_info m ;;
  kw <- eval (unpack_kwargs params) ;;
  invoke (Engine "start_action" [action_name; action_input; description] kw).

(** The decorator [profiler.trace] of the source wraps the method in a trace
    point of the profiling library; it passes arguments, result and
    exception through, and is left out. *)
Definition on_action_complete
  (rpc_ctx action_ex_id result_data result_error wf_action : pyval)
  : M pyval :=
  let result := wf_utils.Result result_data result_error in
  m <- eval (percent fmt_on_action_complete [rpc_ctx; action_ex_id; result]) ;;
  LOG_info m ;;
  invoke (Engine "on_action_complete" [action_ex_id; result; wf_action] []).

Definition pause_workflow (rpc_ctx execution_id : pyval) : M pyval :=
  m <- eval (percent fmt_pause_workflow [rpc_ctx; execution_id]) ;;
  LOG_info m ;;
  invoke (Engine "pause_workflow" [execution_id] []).

Definition rerun_workflow (rpc_ctx task_ex_id : pyval)
  (reset env_ : option pyval) : M pyval :=
  let reset := default_arg (PBool true) reset in
  let env_ := default_arg PNone env_ in
  m <- eval (percent fmt_rerun_workflow [rpc_ctx; task_ex_id]) ;;
  LOG_info m ;;
  invoke (Engine "rerun_workflow" [task_ex_id; reset; env_] []).

Definition resume_workflow (rpc_ctx wf_ex_id : pyval) (env_ : option pyval)
  : M pyval :=
  let env_ := default_arg PNone env_ in
  m <- eval (percent fmt_resume_workflow [rpc_ctx; wf_ex_id]) ;;
  LOG_info m ;;
  invoke (Engine "resume_workflow" [wf_ex_id; env_] []).

Definition stop_workflow (rpc_ctx execution_id state_ : pyval)
  (message_ : option pyval) : M pyval :=
  let message_ := default_arg PNone message_ in
  m <- eval (percent fmt_stop_workflow
               [rpc_ctx; execution_id; state_; message_]) ;;
  LOG_info m ;;
  invoke (Engine "stop_workflow" [execution_id; state_; message_] []).

Definition rollback_workflow (rpc_ctx execution_id : pyval) : M pyval :=
  m <- eval (percent fmt_rollback_workflow [rpc_ctx; execution_id]) ;;
  LOG_info m ;;
  invoke (Engine "rollback_workflow" [execution_id] []).

(** *** A remote call and its dispatch *)

(** The eight operations of the endpoint with the arguments of each; an
    argument that has a default in the signature may be left out. *)
Inductive rpc_request : Type :=
| StartWorkflow
    (workflow_identifier workflow_input description params : pyval)
| StartAction (action_name action_input description params : pyval)
| OnActionComplete
    (action_ex_id result_data result_error wf_action : pyval)
| PauseWorkflow (execution_id : pyval)
| RerunWorkflow (task_ex_id : pyval) (reset env_ : option pyval)
| ResumeWorkflow (wf_ex_id : pyval) (env_ : option pyval)
| StopWorkflow (execution_id state_ : pyval) (message_ : option pyval)
| RollbackWorkflow (execution_id : pyval).

(** The RPC layer calls the method named by the request with the request
    context first. *)
Definition handle (rpc_ctx : pyval) (r : rpc_request) : M pyval :=
  match r with
  | StartWorkflow wi inp d params => start_workflow rpc_ctx wi inp d params
  | StartAction n inp d params => start_action rpc_ctx n inp d params
  | OnActionComplete i rd re wa => on_action_complete rpc_ctx i rd re wa
  | PauseWorkflow i => pause_workflow rpc_ctx i
  | RerunWorkflow t reset e => rerun_workflow rpc_ctx t reset e
  | ResumeWorkflow i e => resume_workflow rpc_ctx i e
  | StopWorkflow i st msg => stop_workflow rpc_ctx i st msg
  | RollbackWorkflow i => rollback_workflow rpc_ctx i
  end.

(** ** Vocabulary of the properties *)

(** The calls a method made, in order, and the kind of each. *)
Definition calls (evs : list event) : list call :=
  flat_map (fun ev => match ev with Call c _ => [c] | LogInfo _ => [] end) evs.

Definition is_call (ev : event) : bool :=
  match ev with Call _ _ => true | LogInfo _ => false end.

Inductive kind : Type :=
| K_service_start | K_service_stop | K_setup_db
| K_scheduler_start | K_scheduler_stop
| K_expiration_setup | K_expiration_stop
| K_profiler_setup
| K_get_rpc_server_driver | K_new_rpc_server | K_register_endpoint
| K_rpc_run | K_rpc_stop
| K_notify_started | K_engine.

Definition kind_of (c : call) : kind :=
  match c with
  | ServiceStart => K_service_start
  | ServiceStop _ => K_service_stop
  | SetupDb => K_setup_db
  | SchedulerStart => K_scheduler_start
  | SchedulerStop _ _ => K_scheduler_stop
  | ExpirationSetup => K_expiration_setup
  | ExpirationStop _ _ => K_expiration_stop
  | ProfilerSetup _ _ => K_profiler_setup
  | GetRpcServerDriver => K_get_rpc_server_driver
  | NewRpcServer _ _ => K_new_rpc_server
  | RegisterEndpoint _ _ => K_register_endpoint
  | RpcRun _ _ => K_rpc_run
  | RpcStop _ _ => K_rpc_stop
  | NotifyStarted _ => K_notify_started
  | Engine _ _ _ => K_engine
  end.

(** [l] is an initial segment of [l']. *)
Definition initial_segment {A} (l l' : list A) : Prop :=
  exists rest, l ++ rest = l'.

(** *** Start-up *)

(** The steps of a start-up that goes through, by kind; the profiler is
    wired only when the server was built with [setup_profiler]. *)
Definition start_order (profiling : bool) : list kind :=
  [K_service_start; K_setup_db; K_scheduler_start; K_expiration_setup]
  ++ (if profiling then [K_profiler_setup] else [])
  ++ [K_get_rpc_server_driver; K_new_rpc_server; K_register_endpoint;
      K_rpc_run; K_notify_started].

(** The events of a start-up in which every step returned: [h], [tg] and
    [server] are the handles the collaborators gave, [endpoint] the server
    object that was registered. *)
Definition complete_start (profiling : bool) (h tg server : pyval)
  (endpoint : EngineServer) (evs : list event) : Prop :=
  exists a1 a2 p driver a3 a4 a5,
    evs =
      [Call ServiceStart (Returned a1);
       Call SetupDb (Returned a2);
       Call SchedulerStart (Returned h);
       Call ExpirationSetup (Returned tg)]
      ++ (if profiling
          then [Call (ProfilerSetup (PStr "mistral-engine") conf_engine_host)
                  (Returned p)]
          else [])
      ++ [Call GetRpcServerDriver (Returned driver);
          Call (NewRpcServer driver conf_engine) (Returned server);
          Call (RegisterEndpoint server endpoint) (Returned a3);
          Call (RpcRun server "blocking") (Returned a4);
          Call (NotifyStarted "Engine server started.") a5].

(** Whether the readiness notification was emitted. *)
Definition notified (evs : list event) : bool :=
  existsb (fun c => match c with NotifyStarted _ => true | _ => false end)
    (calls evs).

(** Whether the profiler set-up was called and raised. *)
Definition profiler_raised (evs : list event) : bool :=
  existsb (fun ev => match ev with
                     | Call (ProfilerSetup _ _) (Raised _) => true
                     | _ => false
                     end) evs.

(** Whether the RPC server was constructed, and whether the serve loop was
    entered. *)
Definition server_constructed (evs : list event) : bool :=
  existsb (fun c => match c with NewRpcServer _ _ => true | _ => false end)
    (calls evs).

Definition serve_loop_entered (evs : list event) : bool :=
  existsb (fun c => match c with RpcRun _ _ => true | _ => false end)
    (calls evs).

(** A failure of the profiler set-up does not keep start from constructing
    the RPC server and entering the serve loop. *)
Definition profiler_failure_tolerated (evs : list event) : Prop :=
  profiler_raised evs = true ->
  server_constructed evs = true /\ serve_loop_entered evs = true.

(** *** Shut-down *)

(** The flag a shut-down call carries. *)
Definition graceful_of (c : call) : option pyval :=
  match c with
  | ServiceStop g | SchedulerStop _ g | ExpirationStop _ g | RpcStop _ g =>
      Some g
  | _ => None
  end.

Definition is_stop_call (c : call) : bool :=
  match graceful_of c with Some _ => true | None => false end.

(** The collaborators' shut-down calls return. *)
Definition stops_return : Prop :=
  forall c w, is_stop_call c = true ->
              exists v w', env c w = (Returned v, w').

(** The shut-down calls due for a server object: the base class, then one
    call for each handle that is present. *)
Definition stop_plan (this : EngineServer) (g : pyval) : list call :=
  [ServiceStop g]
  ++ (if truthy (_scheduler this)
      then [SchedulerStop (_scheduler this) g] else [])
  ++ (if truthy (_expiration_policy_tg this)
      then [ExpirationStop (_expiration_policy_tg this) g] else [])
  ++ (if truthy (_rpc_server this)
      then [RpcStop (_rpc_server this) g] else []).

(** The subsystems the server brings up and tears down. *)
Inductive subsystem : Type := Store | Scheduler | ExpirationSweep | RpcServer.

Definition brings_up (c : call) : list subsystem :=
  match c with
  | SetupDb => [Store]
  | SchedulerStart => [Scheduler]
  | ExpirationSetup => [ExpirationSweep]
  | NewRpcServer _ _ => [RpcServer]
  | _ => []
  end.

Definition tears_down (c : call) : list subsystem :=
  match c with
  | SchedulerStop _ _ => [Scheduler]
  | ExpirationStop _ _ => [ExpirationSweep]
  | RpcStop _ _ => [RpcServer]
  | _ => []
  end.

Definition startup_order (evs : list event) : list subsystem :=
  flat_map brings_up (calls evs).

Definition teardown_order (evs : list event) : list subsystem :=
  flat_map tears_down (calls evs).

(** The subsystems [stop] has a step for (the store has none). *)
Definition has_teardown (x : subsystem) : bool :=
  match x with Store => false | _ => true end.

(** The handle of a subsystem is present in the server object. *)
Definition present (this : EngineServer) (x : subsystem) : bool :=
  match x with
  | Store => false
  | Scheduler => truthy (_scheduler this)
  | ExpirationSweep => truthy (_expiration_policy_tg this)
  | RpcServer => truthy (_rpc_server this)
  end.

(** Tear-down in the reverse of the start-up order. *)
Definition reverse_teardown (start_evs stop_evs : list event) : Prop :=
  teardown_order stop_evs
  = rev (filter has_teardown (startup_order start_evs)).

(** *** Dispatch *)

Definition op_name (r : rpc_request) : string :=
  match r with
  | StartWorkflow _ _ _ _ => "start_workflow"
  | StartAction _ _ _ _ => "start_action"
  | OnActionComplete _ _ _ _ => "on_action_complete"
  | PauseWorkflow _ => "pause_workflow"
  | RerunWorkflow _ _ _ => "rerun_workflow"
  | ResumeWorkflow _ _ => "resume_workflow"
  | StopWorkflow _ _ _ => "stop_workflow"
  | RollbackWorkflow _ => "rollback_workflow"
  end.

(** The arguments of a request as the method sees them, defaults filled
    in. *)
Definition request_args (r : rpc_request) : list pyval :=
  match r with
  | StartWorkflow wi inp d params => [wi; inp; d; params]
  | StartAction n inp d params => [n; inp; d; params]
  | OnActionComplete i rd re wa => [i; rd; re; wa]
  | PauseWorkflow i => [i]
  | RerunWorkflow t reset e =>
      [t; default_arg (PBool true) reset; default_arg PNone e]
  | ResumeWorkflow i e => [i; default_arg PNone e]
  | StopWorkflow i st msg => [i; st; default_arg PNone msg]
  | RollbackWorkflow i => [i]
  end.

(** The engine call that hands the arguments on as they came. *)
Definition verbatim (r : rpc_request) : call :=
  Engine (op_name r) (request_args r) [].

Definition with_keywords (method : string) (args : list pyval)
  (params : pyval) : outcome call :=
  match unpack_kwargs params with
  | Returned kw => Returned (Engine method args kw)
  | Raised e => Raised e
  | Blocked => Blocked
  end.

(** The engine call each operation makes. *)
Definition forwarded (r : rpc_request) : outcome call :=
  match r with
  | StartWorkflow wi inp d params =>
      with_keywords "start_workflow" [wi; inp; d] params
  | StartAction n inp d params =>
      with_keywords "start_action" [n; inp; d] params
  | OnActionComplete i rd re wa =>
      Returned (Engine "on_action_complete" [i; wf_utils.Result rd re; wa] [])
  | PauseWorkflow _ | RerunWorkflow _ _ _ | ResumeWorkflow _ _
  | StopWorkflow _ _ _ | RollbackWorkflow _ =>
      Returned (verbatim r)
  end.

Definition log_format (r : rpc_request) : string :=
  match r with
  | StartWorkflow _ _ _ _ => fmt_start_workflow
  | StartAction _ _ _ _ => fmt_start_action
  | OnActionComplete _ _ _ _ => fmt_on_action_complete
  | PauseWorkflow _ => fmt_pause_workflow
  | RerunWorkflow _ _ _ => fmt_rerun_workflow
  | ResumeWorkflow _ _ => fmt_resume_workflow
  | StopWorkflow _ _ _ => fmt_stop_workflow
  | RollbackWorkflow _ => fmt_rollback_workflow
  end.

(** The arguments each operation writes into its log record, after the
    request context. *)
Definition logged_args (r : rpc_request) : list pyval :=
  match r with
  | OnActionComplete i rd re _ => [i; wf_utils.Result rd re]
  | RerunWorkflow t _ _ => [t]
  | ResumeWorkflow i _ => [i]
  | StartWorkflow _ _ _ _ | StartAction _ _ _ _ | PauseWorkflow _
  | StopWorkflow _ _ _ | RollbackWorkflow _ =>
      request_args r
  end.

Definition log_record (rpc_ctx : pyval) (r : rpc_request) : message :=
  Msg (log_format r) (rpc_ctx :: logged_args r).

(** One log record, then the call if there is one, whose answer is the
    answer of the method. *)
Definition logged_then_called (record : message) (target : outcome call)
  (s : state) : run pyval :=
  match target with
  | Returned c =>
      let (answer, w) := env c (world s) in
      mkRun answer (mkState (self s) w) [LogInfo record; Call c answer]
  | Raised e => mkRun (Raised e) s [LogInfo record]
  | Blocked => mkRun Blocked s [LogInfo record]
  end.

(** The method made the engine call [verbatim r]. *)
Definition forwards_verbatim (r : rpc_request) (evs : list event) : Prop :=
  exists answer, In (Call (verbatim r) answer) evs.

(** The method logged one record before anything else, which names the
    operation and holds every argument of the request. *)
Definition logs_all_arguments (r : rpc_request) (evs : list event) : Prop :=
  exists m rest,
    evs = LogInfo m :: rest
    /\ contains (op_name r) (msg_format m) = true
    /\ Forall (fun a => In a (msg_values m)) (request_args r).

(** The method raised InvalidArgument and made no engine call. *)
Definition rejected_before_engine (r : run pyval) : Prop :=
  (exists detail, result r = Raised (Exc "InvalidArgument" detail))
  /\ Forall (fun c => kind_of c <> K_engine) (calls (events r)).

(** A value other than None. *)
Definition populated (v : pyval) : bool := is_not_none v.

(** *** Outcomes of the calls *)

(** The collaborator answered by returning (a log record always does). *)
Definition answered (ev : event) : bool :=
  match ev with
  | Call _ (Returned _) => true
  | Call _ (Raised _) => false
  | Call _ Blocked => false
  | LogInfo _ => true
  end.

Definition profiler_called (evs : list event) : bool :=
  existsb (fun c => match c with ProfilerSetup _ _ => true | _ => false end)
    (calls evs).

Definition expiration_returned (evs : list event) : bool :=
  existsb (fun ev => match ev with
                     | Call ExpirationSetup (Returned _) => true
                     | _ => false
                     end) evs.

(** The subsystems of which a run of start obtained a handle that counts as
    present, in the order it obtained them. *)
Definition obtained (evs : list event) : list subsystem :=
  flat_map (fun ev =>
              match ev with
              | Call SchedulerStart (Returned h) =>
                  if truthy h then [Scheduler] else []
              | Call ExpirationSetup (Returned h) =>
                  if truthy h then [ExpirationSweep] else []
              | Call (NewRpcServer _ _) (Returned h) =>
                  if truthy h then [RpcServer] else []
              | _ => []
              end) evs.

(** What a call of start was given, read against the events of the run. *)
Definition wired (evs : list event) (c : call) : Prop :=
  match c with
  | ServiceStart | SetupDb | SchedulerStart | ExpirationSetup
  | GetRpcServerDriver => True
  | ProfilerSetup binary host =>
      binary = PStr "mistral-engine" /\ host = conf_engine_host
  | NewRpcServer driver conf =>
      conf = conf_engine
      /\ In (Call GetRpcServerDriver (Returned driver)) evs
  | RegisterEndpoint server endpoint =>
      _rpc_server endpoint = server
      /\ exists driver,
          In (Call (NewRpcServer driver conf_engine) (Returned server)) evs
  | RpcRun server executor =>
      executor = "blocking"
      /\ exists endpoint a,
          In (Call (RegisterEndpoint server endpoint) (Returned a)) evs
  | NotifyStarted text =>
      text = "Engine server started."
      /\ exists server a, In (Call (RpcRun server "blocking") (Returned a)) evs
  | ServiceStop _ | SchedulerStop _ _ | ExpirationStop _ _ | RpcStop _ _
  | Engine _ _ _ => False
  end.

(** A value that is a string. *)
Definition is_str (v : pyval) : bool :=
  match v with PStr _ => true | _ => false end.

(** The mapping whose items are the given keywords. *)
Definition mapping_of (kw : list (string * pyval)) : pyval :=
  PDict (map (fun kv => (PStr (fst kv), snd kv)) kw).

(** ** Proof tactics *)

(** Case analysis on the answers of the collaborators and on the tests of
    the method, one at a time in the order the method meets them; [H] is
    the equation that names the run. *)
Ltac next_answer H :=
  match type of H with
  | context [env ?c ?w] =>
      let E := fresh "E" in
      destruct (env c w) as [[? | ? | ] ?] eqn:E; cbn in H
  | context [truthy ?v] =>
      let T := fresh "T" in
      destruct (truthy v) eqn:T; cbn in H
  end.

Ltac run_method m t :=
  let r := fresh "r" in
  let R := fresh "R" in
  remember t as r eqn:R;
  unfold m, when in R;
  unfold bind, invoke, assign, get_self, ret in R; cbn in R;
  repeat next_answer R;
  subst r; cbn;
  repeat match goal with
         | T : truthy _ = _ |- _ => rewrite T; clear T
         end.

Ltac among_events :=
  intros;
  repeat match goal with
         | H : _ \/ _ |- _ => destruct H
         | H : False |- _ => contradiction
         | H : Call _ _ = Call _ _ |- _ =>
             first [discriminate H | inversion H; subst; clear H]
         end;
  try reflexivity.

(** A shut-down call that did not return contradicts [H : stops_return]. *)
Ltac stop_returned H :=
  match goal with
  | E : env ?c ?w = (Raised _, _) |- _ =>
      destruct (H c w eq_refl) as [? [? HR]]; rewrite HR in E; discriminate E
  | E : env ?c ?w = (Blocked, _) |- _ =>
      destruct (H c w eq_refl) as [? [? HR]]; rewrite HR in E; discriminate E
  end.

(** ** Properties of the dispatch *)

Example truthy_of_handles :
  truthy PNone = false /\ truthy (PObj "scheduler") = true
  /\ truthy (PDict []) = false /\ truthy (PStr "") = false.
Proof. repeat split. Qed.

Example conversions_of_the_formats :
  map placeholders
    [fmt_start_workflow; fmt_start_action; fmt_on_action_complete;
     fmt_pause_workflow; fmt_rerun_workflow; fmt_resume_workflow;
     fmt_stop_workflow; fmt_rollback_workflow]
  = [5; 5; 3; 2; 2; 2; 4; 2].
Proof. reflexivity. Qed.

Example unpack_kwargs_of_a_mapping :
  unpack_kwargs (PDict [(PStr "env", PDict []); (PStr "task_name", PStr "t1")])
  = Returned [("env", PDict []); ("task_name", PStr "t1")].
Proof. reflexivity. Qed.

Example unpack_kwargs_of_none :
  unpack_kwargs PNone
  = Raised (TypeError "argument after ** must be a mapping").
Proof. reflexivity. Qed.

Lemma percent_matching (fmt : string) (values : list pyval) :
  placeholders fmt = length values ->
  percent fmt values = Returned (Msg fmt values).
Proof.
  intros H. unfold percent. rewrite H, Nat.eqb_refl. reflexivity.
Qed.

(** Every log statement of the file gives its format string as many values
    as it has conversions. *)
Lemma log_record_well_formed (rpc_ctx : pyval) (r : rpc_request) :
  percent (log_format r) (rpc_ctx :: logged_args r)
  = Returned (log_record rpc_ctx r).
Proof.
  apply percent_matching. destruct r; reflexivity.
Qed.

(** The shape all eight methods share. *)
Lemma log_and_call (fmt : string) (values : list pyval) (c : call)
  (s : state) :
  placeholders fmt = length values ->
  (m <- eval (percent fmt values) ;; LOG_info m ;; invoke c) s
  = logged_then_called (Msg fmt values) (Returned c) s.
Proof.
  intros H. unfold bind, eval, LOG_info, invoke, logged_then_called.
  rewrite (percent_matching _ _ H). cbn.
  destruct (env c (world s)) as [[a | e | ] w]; reflexivity.
Qed.

Lemma log_and_call_keywords (fmt : string) (values : list pyval)
  (method : string) (args : list pyval) (params : pyval) (s : state) :
  placeholders fmt = length values ->
  (m <- eval (percent fmt values) ;; LOG_info m ;;
   kw <- eval (unpack_kwargs params) ;; invoke (Engine method args kw)) s
  = logged_then_called (Msg fmt values) (with_keywords method args params) s.
Proof.
  intros H. unfold bind, eval, LOG_info, invoke, logged_then_called,
    with_keywords.
  rewrite (percent_matching _ _ H). cbn.
  destruct (unpack_kwargs params) as [kw | e | ]; cbn; try reflexivity.
  destruct (env (Engine method args kw) (world s)) as [[a | e | ] w];
    reflexivity.
Qed.

Lemma handle_run (rpc_ctx : pyval) (r : rpc_request) (s : state) :
  handle rpc_ctx r s
  = logged_then_called (log_record rpc_ctx r) (forwarded r) s.
Proof.
  destruct r; cbn [handle forwarded];
    first [ apply log_and_call_keywords; reflexivity
          | apply log_and_call; reflexivity ].
Qed.

Lemma keyword_items_unfiltered (items : list (pyval * pyval))
  (kw : list (string * pyval)) :
  keyword_items items = Some kw ->
  map (fun kv => (PStr (fst kv), snd kv)) kw = items.
Proof.
  revert kw. induction items as [ | [k v] items IH]; intros kw H.
  - inversion H. reflexivity.
  - destruct k; try discriminate H. cbn in H.
    destruct (keyword_items items) as [kw' | ] eqn:E; [ | discriminate H].
    inversion H; subst kw. cbn. rewrite (IH kw' eq_refl). reflexivity.
Qed.

Lemma unpack_kwargs_unfiltered (params : pyval) (kw : list (string * pyval)) :
  unpack_kwargs params = Returned kw ->
  params = PDict (map (fun kv => (PStr (fst kv), snd kv)) kw).
Proof.
  destruct params; try discriminate. cbn.
  destruct (keyword_items items) as [kw' | ] eqn:E; [ | discriminate].
  intros H. inversion H; subst kw'.
  rewrite (keyword_items_unfiltered _ _ E). reflexivity.
Qed.

Lemma logged_then_called_events (record : message) (c : call) (s : state) :
  events (logged_then_called record (Returned c) s)
  = [LogInfo record; Call c (fst (env c (world s)))].
Proof.
  unfold logged_then_called. destruct (env c (world s)); reflexivity.
Qed.

Lemma logged_then_called_result (record : message) (c : call) (s : state) :
  result (logged_then_called record (Returned c) s) = fst (env c (world s))
  /\ world (after (logged_then_called record (Returned c) s))
     = snd (env c (world s))
  /\ self (after (logged_then_called record (Returned c) s)) = self s.
Proof.
  unfold logged_then_called. destruct (env c (world s)); cbn; auto.
Qed.

(** C1, as the code has it: every operation logs one record and then makes one call
    of the engine method of the same name, whose result or fault is the
    result or fault of the operation, the collaborators' state being what
    the engine left and the server object untouched. pause_workflow,
    rerun_workflow, resume_workflow, stop_workflow and rollback_workflow pass
    their arguments (defaults filled in) on positionally as they came;
    start_workflow and start_action pass three arguments positionally and
    unpack the params mapping into keyword arguments, all of its items and
    nothing else, and when params cannot be unpacked the operation raises
    the TypeError of the unpacking without calling the engine;
    on_action_complete passes the execution id, one Result built from
    result_data and result_error, and wf_action. *)
Theorem dispatch_forwards_to_engine (rpc_ctx : pyval) (r : rpc_request)
  (s : state) :
  handle rpc_ctx r s = logged_then_called (log_record rpc_ctx r) (forwarded r) s
  /\ match forwarded r with
     | Returned c =>
         calls (events (handle rpc_ctx r s)) = [c]
         /\ (result (handle rpc_ctx r s), world (after (handle rpc_ctx r s)))
            = env c (world s)
     | Raised e =>
         calls (events (handle rpc_ctx r s)) = []
         /\ result (handle rpc_ctx r s) = Raised e
         /\ world (after (handle rpc_ctx r s)) = world s
     | Blocked => False
     end
  /\ self (after (handle rpc_ctx r s)) = self s
  /\ match r with
     | StartWorkflow a b c params | StartAction a b c params =>
         match unpack_kwargs params with
         | Returned kw =>
             forwarded r = Returned (Engine (op_name r) [a; b; c] kw)
             /\ params = PDict (map (fun kv => (PStr (fst kv), snd kv)) kw)
         | Raised e =>
             forwarded r = Raised e /\ exc_class e = "TypeError"
         | Blocked => False
         end
     | OnActionComplete i rd re wa =>
         forwarded r
         = Returned (Engine "on_action_complete"
                       [i; wf_utils.Result rd re; wa] [])
     | PauseWorkflow _ | RerunWorkflow _ _ _ | ResumeWorkflow _ _
     | StopWorkflow _ _ _ | RollbackWorkflow _ =>
         forwarded r = Returned (Engine (op_name r) (request_args r) [])
     end.
Proof.
  rewrite handle_run. split; [reflexivity | ]. split; [ | split].
  - destruct (forwarded r) as [c | e | ] eqn:F.
    + rewrite logged_then_called_events.
      destruct (logged_then_called_result (log_record rpc_ctx r) c s)
        as [Hr [Hw _]].
      rewrite Hr, Hw. split; [reflexivity | ].
      destruct (env c (world s)); reflexivity.
    + cbn. auto.
    + destruct r; cbn in F; try discriminate F;
        unfold with_keywords, unpack_kwargs in F;
        destruct params; try discriminate F;
        destruct (keyword_items items); discriminate F.
  - destruct (forwarded r) as [c | e | ]; [ | reflexivity | reflexivity].
    apply logged_then_called_result.
  - destruct r; cbn [forwarded]; try reflexivity;
      unfold with_keywords;
      destruct (unpack_kwargs params) as [kw | e | ] eqn:U;
      try (split; [reflexivity | ]);
      try (apply unpack_kwargs_unfiltered; exact U);
      unfold unpack_kwargs in U; destruct params; try discriminate U;
      try (inversion U; reflexivity);
      destruct (keyword_items items); try discriminate U;
      inversion U; reflexivity.
Qed.

(** C2, as the code has it: stop_workflow does not examine the target state. For any
    state, PAUSED as much as SUCCESS or ERROR, it logs the call and calls the
    engine's stop_workflow once with the execution id, that state and the
    message (None when left out); the outcome of the operation is the
    outcome of the engine call, so a rejection of the state can only be a
    fault the engine raises. *)
Theorem stop_workflow_forwards_any_state
  (rpc_ctx execution_id state_ : pyval) (message_ : option pyval)
  (s : state) :
  stop_workflow rpc_ctx execution_id state_ message_ s
  = logged_then_called
      (Msg fmt_stop_workflow
         [rpc_ctx; execution_id; state_; default_arg PNone message_])
      (Returned (Engine "stop_workflow"
                   [execution_id; state_; default_arg PNone message_] []))
      s
  /\ calls (events (stop_workflow rpc_ctx execution_id state_ message_ s))
     = [Engine "stop_workflow"
          [execution_id; state_; default_arg PNone message_] []]
  /\ (result (stop_workflow rpc_ctx execution_id state_ message_ s),
      world (after (stop_workflow rpc_ctx execution_id state_ message_ s)))
     = env (Engine "stop_workflow"
              [execution_id; state_; default_arg PNone message_] [])
         (world s).
Proof.
  pose proof (handle_run rpc_ctx
                (StopWorkflow execution_id state_ message_) s) as H.
  cbn [handle forwarded verbatim op_name request_args log_record log_format
       logged_args] in H.
  rewrite H. split; [reflexivity | ].
  rewrite logged_then_called_events. split; [reflexivity | ].
  unfold logged_then_called.
  destruct (env _ (world s)); reflexivity.
Qed.

(** C7, as the code has it: every operation emits one log record at level INFO, before
    anything else it does; the record names the operation and holds the
    request context followed by: all the arguments for start_workflow,
    start_action, pause_workflow, stop_workflow and rollback_workflow; the
    task execution id alone for rerun_workflow (neither reset nor env); the
    workflow execution id alone for resume_workflow (not env); the action
    execution id and the Result built from result_data and result_error for
    on_action_complete (not wf_action). *)
Theorem dispatch_logs_before_forwarding (rpc_ctx : pyval) (r : rpc_request)
  (s : state) :
  exists m rest,
    events (handle rpc_ctx r s) = LogInfo m :: rest
    /\ forallb is_call rest = true
    /\ contains (op_name r) (msg_format m) = true
    /\ msg_values m
       = rpc_ctx ::
         match r with
         | StartWorkflow wi inp d params => [wi; inp; d; params]
         | StartAction n inp d params => [n; inp; d; params]
         | OnActionComplete i rd re _ => [i; wf_utils.Result rd re]
         | PauseWorkflow i => [i]
         | RerunWorkflow t _ _ => [t]
         | ResumeWorkflow i _ => [i]
         | StopWorkflow i st msg => [i; st; default_arg PNone msg]
         | RollbackWorkflow i => [i]
         end.
Proof.
  rewrite handle_run.
  exists (log_record rpc_ctx r).
  destruct (forwarded r) as [c | e | ] eqn:F.
  - exists [Call c (fst (env c (world s)))].
    rewrite logged_then_called_events.
    repeat split; destruct r; reflexivity.
  - exists []. repeat split; destruct r; reflexivity.
  - exists []. repeat split; destruct r; reflexivity.
Qed.

(** C8: from a pair of result data and result error of which one is None and
    the other is not, on_action_complete builds the result that goes to the
    engine with that data and that error: it carries the one that was given
    and not the other, and counts as SUCCESS when it is the data and as
    ERROR when it is the error. *)
Theorem on_action_complete_result
  (rpc_ctx action_ex_id result_data result_error wf_action : pyval)
  (s : state) :
  xorb (populated result_data) (populated result_error) = true ->
  exists r,
    calls (events (on_action_complete rpc_ctx action_ex_id result_data
                     result_error wf_action s))
    = [Engine "on_action_complete" [action_ex_id; r; wf_action] []]
    /\ wf_utils.data r = result_data
    /\ wf_utils.error r = result_error
    /\ xorb (populated (wf_utils.data r)) (populated (wf_utils.error r))
       = true
    /\ if populated result_data
       then wf_utils.error r = PNone /\ wf_utils.state r = "SUCCESS"
       else wf_utils.data r = PNone /\ wf_utils.state r = "ERROR".
Proof.
  intros X. exists (wf_utils.Result result_data result_error).
  pose proof (handle_run rpc_ctx
                (OnActionComplete action_ex_id result_data result_error
                   wf_action) s) as H.
  cbn [handle forwarded] in H. rewrite H, logged_then_called_events.
  repeat split; try exact X.
  unfold populated in *.
  destruct result_data, result_error; cbn in X; try discriminate X;
    cbn; split; reflexivity.
Qed.

(** ** Properties of the life cycle *)

(** C4: start makes its calls in this order: base class start, store
    set-up, scheduler start, expiration set-up, profiler set-up (only with
    setup_profiler), driver look-up, construction of the RPC server,
    registration of the server object as endpoint, blocking serve loop,
    readiness notification. It goes on from one call to the next as long as
    the calls return: it returns (None) only after all of them, and otherwise
    ends with the first call that raised or did not return, with that
    outcome. Each call gets what the source gives it: the profiler the name
    mistral-engine and the configured host, the constructor the driver that
    was looked up and the engine section of the configuration, the
    registration the server that was constructed and the server object
    itself, the serve loop that server and the blocking executor. The handles
    the scheduler, the expiration policy and the constructor returned are
    kept in the server object, whose engine and profiler flag stay as they
    were. The readiness notification is emitted only after every step before
    it has been made and has returned. *)
Theorem start_in_order (s : state) :
  initial_segment (map kind_of (calls (events (start s))))
    (start_order (truthy (_setup_profiler (self s))))
  /\ match result (start s) with
     | Returned v =>
         v = PNone
         /\ map kind_of (calls (events (start s)))
            = start_order (truthy (_setup_profiler (self s)))
         /\ forallb answered (events (start s)) = true
     | Raised e =>
         exists c rest,
           rev (events (start s)) = Call c (Raised e) :: rest
           /\ forallb answered rest = true
     | Blocked =>
         exists c rest,
           rev (events (start s)) = Call c Blocked :: rest
           /\ forallb answered rest = true
     end
  /\ Forall (wired (events (start s))) (calls (events (start s)))
  /\ (forall h, In (Call SchedulerStart (Returned h)) (events (start s)) ->
                _scheduler (self (after (start s))) = h)
  /\ (forall tg, In (Call ExpirationSetup (Returned tg)) (events (start s)) ->
                 _expiration_policy_tg (self (after (start s))) = tg)
  /\ (forall d c server,
        In (Call (NewRpcServer d c) (Returned server)) (events (start s)) ->
        _rpc_server (self (after (start s))) = server)
  /\ (forall server endpoint a,
        In (Call (RegisterEndpoint server endpoint) a) (events (start s)) ->
        endpoint = self (after (start s)))
  /\ engine (self (after (start s))) = engine (self s)
  /\ _setup_profiler (self (after (start s))) = _setup_profiler (self s)
  /\ if notified (events (start s))
     then complete_start (truthy (_setup_profiler (self s)))
            (_scheduler (self (after (start s))))
            (_expiration_policy_tg (self (after (start s))))
            (_rpc_server (self (after (start s))))
            (self (after (start s)))
            (events (start s))
     else True.
Proof.
  run_method start (start s).
  all: split; [eexists; reflexivity | ].
  all: split; [first [repeat split; reflexivity | repeat eexists] | ].
  all: split;
    [repeat (apply Forall_cons || apply Forall_nil); cbn; eauto 20 | ].
  all: split; [among_events | ].
  all: split; [among_events | ].
  all: split; [among_events | ].
  all: split; [among_events | ].
  all: split; [reflexivity | ].
  all: split; [reflexivity | ].
  all: try exact I.
  all: unfold complete_start; repeat eexists.
  Unshelve. all: exact PNone.
Qed.

(** C9, as the code has it: a failure of the profiler set-up is fatal to start. When
    the set-up raises, start raises the same exception at once: the calls
    made are the base class start, the store set-up, the scheduler start,
    the expiration set-up and the failed profiler set-up; no RPC server is
    constructed, the serve loop is not entered, no readiness notification is
    emitted, and the RPC server handle of the server object is left as it
    was. *)
Theorem profiler_failure_aborts_start (s : state) :
  profiler_raised (events (start s)) = true ->
  (exists a1 a2 h tg e,
      events (start s)
      = [Call ServiceStart (Returned a1);
         Call SetupDb (Returned a2);
         Call SchedulerStart (Returned h);
         Call ExpirationSetup (Returned tg);
         Call (ProfilerSetup (PStr "mistral-engine") conf_engine_host)
           (Raised e)]
      /\ result (start s) = Raised e)
  /\ server_constructed (events (start s)) = false
  /\ serve_loop_entered (events (start s)) = false
  /\ notified (events (start s)) = false
  /\ _rpc_server (self (after (start s))) = _rpc_server (self s).
Proof.
  intros H. revert H.
  run_method start (start s).
  all: intros H; try discriminate H.
  repeat split. repeat eexists.
Qed.


(** C10: stop called without an argument behaves as stop(False). Its first
    call is the base class stop with graceful = False; it then calls, in
    this order, the scheduler stop, the expiration stop and the RPC server
    stop, each for a handle that is present and each with graceful = False,
    going on from one call to the next as long as the calls return: it
    returns (None) only after all the calls that are due, and otherwise ends
    with the first call that raised or did not return. When the shut-down
    calls return, all the calls that are due are made. *)
Theorem stop_defaults_to_not_graceful (s : state) :
  stop None s = stop (Some (PBool false)) s
  /\ (exists a rest,
        events (stop None s) = Call (ServiceStop (PBool false)) a :: rest)
  /\ initial_segment (calls (events (stop None s)))
       (stop_plan (self s) (PBool false))
  /\ Forall (fun c => graceful_of c = Some (PBool false))
       (calls (events (stop None s)))
  /\ match result (stop None s) with
     | Returned v =>
         v = PNone
         /\ calls (events (stop None s)) = stop_plan (self s) (PBool false)
     | Raised e =>
         exists c rest,
           rev (events (stop None s)) = Call c (Raised e) :: rest
           /\ forallb answered rest = true
     | Blocked =>
         exists c rest,
           rev (events (stop None s)) = Call c Blocked :: rest
           /\ forallb answered rest = true
     end
  /\ (stops_return ->
      result (stop None s) = Returned PNone
      /\ calls (events (stop None s))
         = [ServiceStop (PBool false)]
           ++ (if truthy (_scheduler (self s))
               then [SchedulerStop (_scheduler (self s)) (PBool false)]
               else [])
           ++ (if truthy (_expiration_policy_tg (self s))
               then [ExpirationStop (_expiration_policy_tg (self s))
                       (PBool false)]
               else [])
           ++ (if truthy (_rpc_server (self s))
               then [RpcStop (_rpc_server (self s)) (PBool false)]
               else [])).
Proof.
  split; [reflexivity | ]. unfold stop_plan.
  run_method stop (stop None s).
  all: split; [eexists; eexists; reflexivity | ].
  all: split; [eexists; reflexivity | ].
  all: split; [repeat constructor | ].
  all: split; [first [split; reflexivity | repeat eexists] | ].
  all: intros H; try stop_returned H.
  all: split; reflexivity.
Qed.

(** C6, as the code has it: stop tears down in the order of the start-up, not
    in its reverse. start brings up the store, the scheduler, the expiration
    sweep and the RPC server in this order, each as soon as the calls before
    it have returned. stop calls the base class stop first and then stops the
    scheduler, the expiration sweep and the RPC server in this order, leaving
    out the handles that are absent (the store has no step) and going on
    from one call to the next as long as the calls return: it returns (None)
    only after all the calls that are due, and otherwise ends with the first
    call that raised or did not return. Every shut-down call carries the
    graceful flag stop was given. *)
Theorem stop_follows_startup_order (g : pyval) (s0 s : state) :
  initial_segment (startup_order (events (start s0)))
    [Store; Scheduler; ExpirationSweep; RpcServer]
  /\ match result (start s0) with
     | Returned _ =>
         startup_order (events (start s0))
         = [Store; Scheduler; ExpirationSweep; RpcServer]
     | Raised e =>
         exists c rest,
           rev (events (start s0)) = Call c (Raised e) :: rest
           /\ forallb answered rest = true
     | Blocked =>
         exists c rest,
           rev (events (start s0)) = Call c Blocked :: rest
           /\ forallb answered rest = true
     end
  /\ (exists a rest,
        events (stop (Some g) s) = Call (ServiceStop g) a :: rest
        /\ teardown_order (events (stop (Some g) s)) = teardown_order rest)
  /\ initial_segment (calls (events (stop (Some g) s))) (stop_plan (self s) g)
  /\ initial_segment (teardown_order (events (stop (Some g) s)))
       (filter (present (self s)) [Scheduler; ExpirationSweep; RpcServer])
  /\ match result (stop (Some g) s) with
     | Returned v =>
         v = PNone
         /\ calls (events (stop (Some g) s)) = stop_plan (self s) g
         /\ teardown_order (events (stop (Some g) s))
            = filter (present (self s)) [Scheduler; ExpirationSweep; RpcServer]
     | Raised e =>
         exists c rest,
           rev (events (stop (Some g) s)) = Call c (Raised e) :: rest
           /\ forallb answered rest = true
     | Blocked =>
         exists c rest,
           rev (events (stop (Some g) s)) = Call c Blocked :: rest
           /\ forallb answered rest = true
     end
  /\ Forall (fun c => graceful_of c = Some g)
       (calls (events (stop (Some g) s))).
Proof.
  assert (S0 :
    initial_segment (startup_order (events (start s0)))
      [Store; Scheduler; ExpirationSweep; RpcServer]
    /\ match result (start s0) with
       | Returned _ =>
           startup_order (events (start s0))
           = [Store; Scheduler; ExpirationSweep; RpcServer]
       | Raised e =>
           exists c rest,
             rev (events (start s0)) = Call c (Raised e) :: rest
             /\ forallb answered rest = true
       | Blocked =>
           exists c rest,
             rev (events (start s0)) = Call c Blocked :: rest
             /\ forallb answered rest = true
       end).
  { run_method start (start s0).
    all: split; [eexists; reflexivity | ].
    all: first [reflexivity | repeat eexists]. }
  destruct S0 as [S1 S2]. split; [exact S1 | ]. split; [exact S2 | ].
  clear S1 S2. unfold stop_plan.
  run_method stop (stop (Some g) s).
  all: split; [eexists; eexists; split; reflexivity | ].
  all: split; [eexists; reflexivity | ].
  all: split; [eexists; reflexivity | ].
  all: split; [first [repeat split; reflexivity | repeat eexists] | ].
  all: repeat constructor.
Qed.

(** ** Further properties of the life cycle *)

(** start has no handler: it returns None, and only when every call it made
    returned; otherwise its outcome is the outcome of the last call it made,
    the first that raised or did not return, and nothing was called after. *)
Theorem start_fails_fast (s : state) :
  match result (start s) with
  | Returned v => v = PNone /\ forallb answered (events (start s)) = true
  | Raised e =>
      exists c rest,
        rev (events (start s)) = Call c (Raised e) :: rest
        /\ forallb answered rest = true
  | Blocked =>
      exists c rest,
        rev (events (start s)) = Call c Blocked :: rest
        /\ forallb answered rest = true
  end.
Proof.
  run_method start (start s).
  all: first [split; reflexivity | repeat eexists].
Qed.

(** stop has no handler either: a shut-down call that raises or does not
    return ends it, with that outcome, and the handles after it in the
    sequence are not stopped. *)
Theorem stop_fails_fast (graceful : option pyval) (s : state) :
  match result (stop graceful s) with
  | Returned v => v = PNone /\ forallb answered (events (stop graceful s)) = true
  | Raised e =>
      exists c rest,
        rev (events (stop graceful s)) = Call c (Raised e) :: rest
        /\ forallb answered rest = true
  | Blocked =>
      exists c rest,
        rev (events (stop graceful s)) = Call c Blocked :: rest
        /\ forallb answered rest = true
  end.
Proof.
  run_method stop (stop graceful s).
  all: first [split; reflexivity | repeat eexists].
Qed.

(** The profiler set-up is called exactly when the server was built with a
    flag that counts as true and the expiration set-up returned. *)
Theorem profiler_called_exactly_when (s : state) :
  profiler_called (events (start s))
  = (truthy (_setup_profiler (self s))
     && expiration_returned (events (start s)))%bool.
Proof.
  run_method start (start s).
  all: try reflexivity.
  all: destruct (truthy (_setup_profiler (self s))); reflexivity.
Qed.

(** Whatever the collaborators answer, start calls the profiler set-up with
    the name mistral-engine and the configured host, constructs the RPC
    server with the driver the look-up returned and the engine section of the
    configuration, registers as endpoint, on the server that was constructed,
    a server object that holds this server as its handle,
    runs the serve loop with the blocking executor on the server the endpoint
    was registered on, notifies only after a serve loop that returned, and
    makes no shut-down call and no engine call. *)
Theorem start_wiring (s : state) :
  Forall (wired (events (start s))) (calls (events (start s))).
Proof.
  run_method start (start s).
  all: repeat (apply Forall_cons || apply Forall_nil).
  all: cbn; eauto 20.
Qed.

Lemma stop_when_stops_return (g : pyval) (s : state) :
  stops_return ->
  result (stop (Some g) s) = Returned PNone
  /\ calls (events (stop (Some g) s)) = stop_plan (self s) g
  /\ teardown_order (events (stop (Some g) s))
     = filter (present (self s)) [Scheduler; ExpirationSweep; RpcServer]
  /\ self (after (stop (Some g) s)) = self s.
Proof.
  intros H. unfold stop_plan.
  run_method stop (stop (Some g) s).
  all: try stop_returned H.
  all: repeat split; reflexivity.
Qed.

(** A stop after a start, whether the start went through or ended at a step
    that failed, stops the subsystems of which the start obtained a handle,
    in the order it obtained them, and nothing else: on a server that held no
    handle before the start, and with shut-down calls that return. *)
Theorem stop_after_any_start (g : pyval) (s : state) :
  stops_return ->
  _scheduler (self s) = PNone ->
  _expiration_policy_tg (self s) = PNone ->
  _rpc_server (self s) = PNone ->
  result (stop (Some g) (after (start s))) = Returned PNone
  /\ teardown_order (events (stop (Some g) (after (start s))))
     = obtained (events (start s)).
Proof.
  intros H Hs He Hr.
  destruct (stop_when_stops_return g (after (start s)) H) as [R1 [_ [R2 _]]].
  split; [exact R1 | ]. rewrite R2. clear R1 R2.
  run_method start (start s).
  all: rewrite ?Hs, ?He, ?Hr; cbn.
  all: repeat match goal with
              | |- context [truthy ?v] => destruct (truthy v)
              end.
  all: reflexivity.
Qed.

(** stop leaves the handles in the server object: a second stop makes the
    same shut-down calls on the same handles again. *)
Theorem stop_twice_repeats_the_calls (g : pyval) (s : state) :
  stops_return ->
  self (after (stop (Some g) s)) = self s
  /\ calls (events (stop (Some g) (after (stop (Some g) s))))
     = calls (events (stop (Some g) s)).
Proof.
  intros H.
  destruct (stop_when_stops_return g s H) as [_ [C1 [_ S1]]].
  destruct (stop_when_stops_return g (after (stop (Some g) s)) H)
    as [_ [C2 _]].
  split; [exact S1 | ]. rewrite C2, C1, S1. reflexivity.
Qed.

(** A server that was built and never started holds no handle: stop on it
    makes the shut-down call of the base class and no other. *)
Theorem stop_of_unstarted_service (default_engine : pyval)
  (setup_profiler graceful : option pyval) (w : World) :
  calls (events (stop graceful
                   (mkState (get_oslo_service default_engine setup_profiler)
                      w)))
  = [ServiceStop (default_arg (PBool false) graceful)].
Proof.
  destruct graceful as [g | ]; cbn [default_arg].
  - run_method stop
      (stop (Some g)
         (mkState (get_oslo_service default_engine setup_profiler) w)).
    all: reflexivity.
  - run_method stop
      (stop None
         (mkState (get_oslo_service default_engine setup_profiler) w)).
    all: reflexivity.
Qed.

(** ** Further properties of the dispatch *)

Lemma keyword_items_of_keywords (kw : list (string * pyval)) :
  keyword_items (map (fun kv => (PStr (fst kv), snd kv)) kw) = Some kw.
Proof.
  induction kw as [ | [k v] kw IH]; [reflexivity | ].
  cbn. rewrite IH. reflexivity.
Qed.

Lemma keyword_items_non_string (items : list (pyval * pyval)) (k v : pyval) :
  In (k, v) items -> is_str k = false -> keyword_items items = None.
Proof.
  intros I K. induction items as [ | [k' v'] items IH]; [contradiction | ].
  destruct I as [I | I].
  - inversion I; subst k' v'. destruct k; try discriminate K; reflexivity.
  - cbn. destruct k'; try reflexivity. rewrite (IH I). reflexivity.
Qed.

(** Unpacking succeeds on the mappings whose keys are all strings and loses
    nothing: params unpacks to the keywords kw exactly when it is the mapping
    of kw. So start_workflow and start_action, given a mapping with string
    keys (the empty one included), call the engine with these keywords and
    the three other arguments. *)
Theorem string_keyed_params_are_forwarded
  (rpc_ctx a b c : pyval) (kw : list (string * pyval)) (s : state) :
  (forall params, unpack_kwargs params = Returned kw <-> params = mapping_of kw)
  /\ calls (events (start_workflow rpc_ctx a b c (mapping_of kw) s))
     = [Engine "start_workflow" [a; b; c] kw]
  /\ calls (events (start_action rpc_ctx a b c (mapping_of kw) s))
     = [Engine "start_action" [a; b; c] kw].
Proof.
  assert (U : unpack_kwargs (mapping_of kw) = Returned kw).
  { unfold mapping_of, unpack_kwargs.
    rewrite keyword_items_of_keywords. reflexivity. }
  split; [ | split].
  - intros params. split.
    + apply unpack_kwargs_unfiltered.
    + intros E. subst params. exact U.
  - pose proof (handle_run rpc_ctx (StartWorkflow a b c (mapping_of kw)) s)
      as H.
    cbn [handle forwarded] in H. unfold with_keywords in H.
    rewrite U in H. rewrite H, logged_then_called_events. reflexivity.
  - pose proof (handle_run rpc_ctx (StartAction a b c (mapping_of kw)) s)
      as H.
    cbn [handle forwarded] in H. unfold with_keywords in H.
    rewrite U in H. rewrite H, logged_then_called_events. reflexivity.
Qed.

(** A params mapping with a key that is not a string, wherever it stands
    among the items, makes start_workflow and start_action raise TypeError
    after the log record and before any engine call; the state of the
    collaborators is what it was. *)
Theorem non_string_key_is_rejected
  (rpc_ctx a b c : pyval) (items : list (pyval * pyval)) (k v : pyval)
  (s : state) :
  In (k, v) items ->
  is_str k = false ->
  start_workflow rpc_ctx a b c (PDict items) s
  = mkRun (Raised (TypeError "keywords must be strings")) s
      [LogInfo (Msg fmt_start_workflow [rpc_ctx; a; b; c; PDict items])]
  /\ start_action rpc_ctx a b c (PDict items) s
     = mkRun (Raised (TypeError "keywords must be strings")) s
         [LogInfo (Msg fmt_start_action [rpc_ctx; a; b; c; PDict items])].
Proof.
  intros I K.
  pose proof (keyword_items_non_string items k v I K) as N.
  split.
  - pose proof (handle_run rpc_ctx (StartWorkflow a b c (PDict items)) s) as H.
    cbn [handle forwarded] in H. unfold with_keywords, unpack_kwargs in H.
    rewrite N in H. exact H.
  - pose proof (handle_run rpc_ctx (StartAction a b c (PDict items)) s) as H.
    cbn [handle forwarded] in H. unfold with_keywords, unpack_kwargs in H.
    rewrite N in H. exact H.
Qed.

End Service.

Arguments mkState {World}.
Arguments self {World}.
Arguments world {World}.
Arguments result {World A}.
Arguments after {World A}.
Arguments events {World A}.
Arguments start {World}.
Arguments stop {World}.
Arguments handle {World}.
Arguments stop_workflow {World}.
Arguments on_action_complete {World}.
Arguments rejected_before_engine {World}.

(** ** The properties on concrete runs *)

(** A start that goes through, with the profiler wired. *)
Example start_goes_through :
  events (start obliging (PObj "conf") (PStr "engine-host")
            (mkState fresh_server tt))
  = [Call ServiceStart (Returned PNone);
     Call SetupDb (Returned PNone);
     Call SchedulerStart (Returned (PObj "scheduler"));
     Call ExpirationSetup (Returned (PObj "expiration_tg"));
     Call (ProfilerSetup (PStr "mistral-engine") (PStr "engine-host"))
       (Returned PNone);
     Call GetRpcServerDriver (Returned (PObj "rpc_server_driver"));
     Call (NewRpcServer (PObj "rpc_server_driver") (PObj "conf"))
       (Returned (PObj "rpc_server"));
     Call (RegisterEndpoint (PObj "rpc_server")
             {| engine := PObj "engine";
                _setup_profiler := PBool true;
                _rpc_server := PObj "rpc_server";
                _scheduler := PObj "scheduler";
                _expiration_policy_tg := PObj "expiration_tg" |})
       (Returned PNone);
     Call (RpcRun (PObj "rpc_server") "blocking") (Returned PNone);
     Call (NotifyStarted "Engine server started.") (Returned PNone)]
  /\ self (after (start obliging (PObj "conf") (PStr "engine-host")
                    (mkState fresh_server tt)))
     = {| engine := PObj "engine";
          _setup_profiler := PBool true;
          _rpc_server := PObj "rpc_server";
          _scheduler := PObj "scheduler";
          _expiration_policy_tg := PObj "expiration_tg" |}.
Proof. split; reflexivity. Qed.

(** stop without an argument after that start. *)
Example stop_after_start :
  calls (events (stop obliging None
                   (after (start obliging (PObj "conf") (PStr "engine-host")
                             (mkState fresh_server tt)))))
  = [ServiceStop (PBool false);
     SchedulerStop (PObj "scheduler") (PBool false);
     ExpirationStop (PObj "expiration_tg") (PBool false);
     RpcStop (PObj "rpc_server") (PBool false)].
Proof. reflexivity. Qed.

(** C1, as stated, fails for on_action_complete: called with the data x = 1
    and no error, it does not hand the four arguments on as they came; the
    engine gets three, the second being the Result built from the data and
    the error. *)
Lemma on_action_complete_not_verbatim :
  calls (events (handle obliging (PStr "ctx")
                   (OnActionComplete (PStr "action-1")
                      (PDict [(PStr "x", PInt 1)]) PNone (PBool false))
                   (mkState fresh_server tt)))
  = [Engine "on_action_complete"
       [PStr "action-1"; PResult (PDict [(PStr "x", PInt 1)]) PNone;
        PBool false] []]
  /\ ~ forwards_verbatim
        (OnActionComplete (PStr "action-1")
           (PDict [(PStr "x", PInt 1)]) PNone (PBool false))
        (events (handle obliging (PStr "ctx")
                   (OnActionComplete (PStr "action-1")
                      (PDict [(PStr "x", PInt 1)]) PNone (PBool false))
                   (mkState fresh_server tt))).
Proof.
  split; [reflexivity | ].
  intros [answer H]. cbn in H.
  destruct H as [H | [H | []]]; discriminate H.
Qed.

(** C2, as stated, fails: stop_workflow with the target state PAUSED is not
    rejected; the engine's stop_workflow is called with PAUSED and its result
    is returned. *)
Lemma stop_workflow_paused_reaches_engine :
  result (stop_workflow obliging (PStr "ctx") (PStr "wf-1") (PStr "PAUSED")
            None (mkState fresh_server tt))
  = Returned (PObj "execution")
  /\ calls (events (stop_workflow obliging (PStr "ctx") (PStr "wf-1")
                      (PStr "PAUSED") None (mkState fresh_server tt)))
     = [Engine "stop_workflow" [PStr "wf-1"; PStr "PAUSED"; PNone] []]
  /\ ~ rejected_before_engine
        (stop_workflow obliging (PStr "ctx") (PStr "wf-1") (PStr "PAUSED")
           None (mkState fresh_server tt)).
Proof.
  split; [reflexivity | ]. split; [reflexivity | ].
  intros [[detail H] _]. discriminate H.
Qed.

(** C6, as stated, fails: after a start that went through, stop tears down
    scheduler, expiration sweep and RPC server in this order, which is the
    order of the start-up and not its reverse. *)
Lemma teardown_is_not_reversed :
  startup_order
    (events (start obliging PNone PNone (mkState fresh_server tt)))
  = [Store; Scheduler; ExpirationSweep; RpcServer]
  /\ teardown_order
       (events (stop obliging (Some (PBool true))
                  (after (start obliging PNone PNone
                            (mkState fresh_server tt)))))
     = [Scheduler; ExpirationSweep; RpcServer]
  /\ ~ reverse_teardown
        (events (start obliging PNone PNone (mkState fresh_server tt)))
        (events (stop obliging (Some (PBool true))
                   (after (start obliging PNone PNone
                             (mkState fresh_server tt))))).
Proof.
  split; [reflexivity | ]. split; [reflexivity | ].
  unfold reverse_teardown. cbn. discriminate.
Qed.

(** C7, as stated, fails for rerun_workflow: called with reset = False, its
    log record holds the request context and the task execution id, and
    neither reset nor env. *)
Lemma rerun_workflow_log_omits_arguments :
  events (handle obliging (PStr "ctx")
            (RerunWorkflow (PStr "task-1") (Some (PBool false)) None)
            (mkState fresh_server tt))
  = [LogInfo (Msg fmt_rerun_workflow [PStr "ctx"; PStr "task-1"]);
     Call (Engine "rerun_workflow" [PStr "task-1"; PBool false; PNone] [])
       (Returned (PObj "execution"))]
  /\ ~ logs_all_arguments
        (RerunWorkflow (PStr "task-1") (Some (PBool false)) None)
        (events (handle obliging (PStr "ctx")
                   (RerunWorkflow (PStr "task-1") (Some (PBool false)) None)
                   (mkState fresh_server tt))).
Proof.
  split; [reflexivity | ].
  intros [m [rest [E [_ F]]]]. cbn in E, F.
  inversion E; subst m rest. cbn in F.
  inversion F as [ | ? ? _ F1]; subst.
  inversion F1 as [ | ? ? H _]; subst.
  destruct H as [H | [H | []]]; discriminate H.
Qed.

(** C9, as stated, fails: with a profiler whose set-up raises, start raises
    too, and neither constructs the RPC server nor enters the serve loop. *)
Lemma start_stops_at_profiler_failure :
  result (start profiler_down PNone (PStr "engine-host")
            (mkState fresh_server tt))
  = Raised (Exc "RuntimeError" "profiler unavailable")
  /\ ~ profiler_failure_tolerated
        (events (start profiler_down PNone (PStr "engine-host")
                   (mkState fresh_server tt))).
Proof.
  split; [reflexivity | ].
  intros H. destruct (H eq_refl) as [C _]. discriminate C.
Qed.

Lemma obliging_stops_return : stops_return unit obliging.
Proof.
  intros c w _. eexists. eexists. reflexivity.
Qed.


(** The two completion reports of the specification: data x = 1 without an
    error, and the error boom without data. *)
Lemma on_action_complete_result_witness :
  (xorb (populated (PDict [(PStr "x", PInt 1)])) (populated PNone) = true
   /\ exists r,
       calls (events (on_action_complete obliging (PStr "ctx")
                        (PStr "action-1") (PDict [(PStr "x", PInt 1)]) PNone
                        (PBool false) (mkState fresh_server tt)))
       = [Engine "on_action_complete" [PStr "action-1"; r; PBool false] []]
       /\ wf_utils.data r = PDict [(PStr "x", PInt 1)]
       /\ wf_utils.error r = PNone
       /\ xorb (populated (wf_utils.data r)) (populated (wf_utils.error r))
          = true
       /\ wf_utils.error r = PNone /\ wf_utils.state r = "SUCCESS")
  /\ (xorb (populated PNone) (populated (PStr "boom")) = true
      /\ exists r,
          calls (events (on_action_complete obliging (PStr "ctx")
                           (PStr "action-1") PNone (PStr "boom")
                           (PBool false) (mkState fresh_server tt)))
          = [Engine "on_action_complete" [PStr "action-1"; r; PBool false] []]
          /\ wf_utils.data r = PNone
          /\ wf_utils.error r = PStr "boom"
          /\ xorb (populated (wf_utils.data r)) (populated (wf_utils.error r))
             = true
          /\ wf_utils.data r = PNone /\ wf_utils.state r = "ERROR").
Proof.
  split; (split; [reflexivity | ]).
  - exact (on_action_complete_result unit obliging (PStr "ctx")
             (PStr "action-1") (PDict [(PStr "x", PInt 1)]) PNone
             (PBool false) (mkState fresh_server tt) eq_refl).
  - exact (on_action_complete_result unit obliging (PStr "ctx")
             (PStr "action-1") PNone (PStr "boom")
             (PBool false) (mkState fresh_server tt) eq_refl).
Defined.

(** start with a profiler whose set-up raises. *)
Lemma profiler_failure_aborts_start_witness :
  profiler_raised
    (events (start profiler_down PNone (PStr "engine-host")
               (mkState fresh_server tt))) = true
  /\ ((exists a1 a2 h tg e,
          events (start profiler_down PNone (PStr "engine-host")
                    (mkState fresh_server tt))
          = [Call ServiceStart (Returned a1);
             Call SetupDb (Returned a2);
             Call SchedulerStart (Returned h);
             Call ExpirationSetup (Returned tg);
             Call (ProfilerSetup (PStr "mistral-engine") (PStr "engine-host"))
               (Raised e)]
          /\ result (start profiler_down PNone (PStr "engine-host")
                       (mkState fresh_server tt)) = Raised e)
      /\ server_constructed
           (events (start profiler_down PNone (PStr "engine-host")
                      (mkState fresh_server tt))) = false
      /\ serve_loop_entered
           (events (start profiler_down PNone (PStr "engine-host")
                      (mkState fresh_server tt))) = false
      /\ notified
           (events (start profiler_down PNone (PStr "engine-host")
                      (mkState fresh_server tt))) = false
      /\ _rpc_server
           (self (after (start profiler_down PNone (PStr "engine-host")
                           (mkState fresh_server tt))))
         = _rpc_server fresh_server).
Proof.
  split.
  - reflexivity.
  - exact (profiler_failure_aborts_start unit profiler_down PNone
             (PStr "engine-host") (mkState fresh_server tt) eq_refl).
Defined.

Arguments mkRun {World A}.
Arguments start_workflow {World}.
Arguments start_action {World}.

(** ** Further properties on concrete runs *)

Lemma profiler_down_stops_return : stops_return unit profiler_down.
Proof.
  intros c w H. destruct c; try discriminate H; eexists; eexists; reflexivity.
Qed.

(** A start that ends at the profiler set-up has the handles of the scheduler
    and of the expiration sweep and none of an RPC server; the stop after it
    stops these two. *)
Lemma stop_after_any_start_witness :
  stops_return unit profiler_down
  /\ _scheduler fresh_server = PNone
  /\ _expiration_policy_tg fresh_server = PNone
  /\ _rpc_server fresh_server = PNone
  /\ result (stop profiler_down (Some (PBool true))
               (after (start profiler_down PNone (PStr "engine-host")
                         (mkState fresh_server tt))))
     = Returned PNone
  /\ teardown_order
       (events (stop profiler_down (Some (PBool true))
                  (after (start profiler_down PNone (PStr "engine-host")
                            (mkState fresh_server tt)))))
     = [Scheduler; ExpirationSweep].
Proof.
  repeat (split; [first [exact profiler_down_stops_return | reflexivity] | ]).
  exact (proj2 (stop_after_any_start unit profiler_down PNone
                  (PStr "engine-host") (PBool true) (mkState fresh_server tt)
                  profiler_down_stops_return eq_refl eq_refl eq_refl)).
Defined.

(** Two stops of a server whose start got as far as the scheduler. *)
Lemma stop_twice_repeats_the_calls_witness :
  stops_return unit obliging
  /\ self (after (stop obliging (Some (PBool false))
                    (mkState half_started_server tt)))
     = half_started_server
  /\ calls (events (stop obliging (Some (PBool false))
                      (after (stop obliging (Some (PBool false))
                                (mkState half_started_server tt)))))
     = [ServiceStop (PBool false);
        SchedulerStop (PObj "scheduler") (PBool false)].
Proof.
  split; [exact obliging_stops_return | ].
  exact (stop_twice_repeats_the_calls unit obliging (PBool false)
           (mkState half_started_server tt) obliging_stops_return).
Defined.

(** params with the integer key 1 after a string key. *)
Lemma non_string_key_is_rejected_witness :
  In (PInt 1, PStr "x") [(PStr "env", PDict []); (PInt 1, PStr "x")]
  /\ is_str (PInt 1) = false
  /\ result (start_workflow obliging (PStr "ctx") (PStr "wf") (PDict [])
               (PStr "") (PDict [(PStr "env", PDict []); (PInt 1, PStr "x")])
               (mkState fresh_server tt))
     = Raised (TypeError "keywords must be strings").
Proof.
  split; [right; left; reflexivity | ]. split; [reflexivity | ].
  exact (f_equal result
           (proj1 (non_string_key_is_rejected unit obliging (PStr "ctx")
                     (PStr "wf") (PDict []) (PStr "")
                     [(PStr "env", PDict []); (PInt 1, PStr "x")]
                     (PInt 1) (PStr "x") (mkState fresh_server tt)
                     (or_intror (or_introl eq_refl)) eq_refl))).
Defined.

(** stop without an argument after a start that went through: the four
    shut-down calls, each with graceful = False. *)
Lemma stop_defaults_to_not_graceful_witness :
  stops_return unit obliging
  /\ (result (stop obliging None
                (after (start obliging (PObj "conf") (PStr "engine-host")
                          (mkState fresh_server tt))))
      = Returned PNone
      /\ calls (events (stop obliging None
                          (after (start obliging (PObj "conf")
                                    (PStr "engine-host")
                                    (mkState fresh_server tt)))))
         = [ServiceStop (PBool false);
            SchedulerStop (PObj "scheduler") (PBool false);
            ExpirationStop (PObj "expiration_tg") (PBool false);
            RpcStop (PObj "rpc_server") (PBool false)]).
Proof.
  split; [exact obliging_stops_return | ].
  exact (proj2 (proj2 (proj2 (proj2 (proj2
           (stop_defaults_to_not_graceful unit obliging
              (after (start obliging (PObj "conf") (PStr "engine-host")
                        (mkState fresh_server tt))))))))
           obliging_stops_return).
Defined.
